(** * SQLitePlus: the SQLITE3 execution engine of [include/SQLITE3.hpp]

    A shallow embedding of the class [SQLITE3]: its fields, its constructor,
    its destructor, [open], [commit], the three [execute] overloads,
    [start_transaction], the row collector [exec_callback], the accessors,
    [print_result] and [perror].

    The SQLite library itself is an external collaborator.  It is taken
    as an interface ([Sqlite3]) over an abstract [world]: every theorem
    of the general part holds for every implementation of the interface.
    A small concrete implementation ([Mock]) is used to run the
    operations on explicit inputs. *)

From stdpp Require Import gmap strings list.

Local Open Scope string_scope.
Local Open Scope list_scope.
Local Open Scope Z_scope.

(** ** C strings *)

(** [std::string::c_str] seen by a C function: the characters before the
    first NUL. *)
Fixpoint c_str (s : string) : string :=
  match s with
  | EmptyString => EmptyString
  | String c rest =>
      if Ascii.eqb c Ascii.zero then EmptyString else String c (c_str rest)
  end.

(** The line terminator written by [perror]. *)
Definition newline : string := String (Ascii.ascii_of_nat 10) EmptyString.

(** ** Result codes of the SQLite library used by the class *)

Definition SQLITE_OK : Z := 0.
Definition SQLITE_ABORT : Z := 4.

(** ** The interface of the SQLite library *)

(** One row as the library reports it: one entry per column, [None] for a
    NULL pointer. *)
Abbreviation raw_row := (list (option string)) (only parsing).

(** What one run of [sqlite3_exec] yields when the row callback accepts
    every row: the rows reported, in order, up to the end of the SQL text or
    to the point of failure; the result code; the value left in the
    [char **] error-message slot; and the library's new state. *)
Record exec_reply (world : Type) : Type := ExecReply {
  reply_rows : list raw_row;
  reply_rc : Z;
  reply_errmsg : option string;
  reply_world : world
}.
Arguments ExecReply {world} _ _ _ _.
Arguments reply_rows {world} _.
Arguments reply_rc {world} _.
Arguments reply_errmsg {world} _.
Arguments reply_world {world} _.

(** [handle] is what a non-null [sqlite3*] points to; a [sqlite3*] is an
    [option handle].  [sqlite3_open] returns the result code and the
    pointer it stores through its second argument.  [sqlite3_run] is the
    statement loop of [sqlite3_exec]; it receives the current content of
    the error-message slot.  [sqlite3_get_autocommit] is the library's
    observer of the transaction state: [false] while a transaction is
    open on the connection. *)
Class Sqlite3 (handle world : Type) : Type := {
  sqlite3_open : string -> world -> Z * option handle * world;
  sqlite3_close : option handle -> world -> world;
  sqlite3_run : option handle -> string -> option string -> world -> exec_reply world;
  sqlite3_get_autocommit : option handle -> world -> bool
}.

(** ** Row callbacks *)

(** [char *argv[]]: an array indexed from 0, without a length of its own. *)
Definition c_array (A : Type) : Type := nat -> A.

Definition argv_of (r : raw_row) : c_array (option string) :=
  fun i => default None (r !! i).

(** [int (*)(void *, int, char **, char **)], the column names left out:
    no callback of the class reads them.  The context behind the [void *]
    is passed in and out. *)
Definition callback (C : Type) : Type := C -> Z -> c_array (option string) -> C * Z.

(** The library calls the callback once per row and stops at the first
    non-zero return; the flag tells whether it stopped. *)
Fixpoint feed {C : Type} (cb : callback C) (ctx : C) (rows : list raw_row) : C * bool :=
  match rows with
  | [] => (ctx, false)
  | r :: rest =>
      let '(ctx', ret) := cb ctx (Z.of_nat (length r)) (argv_of r) in
      if ret =? 0 then feed cb ctx' rest else (ctx', true)
  end.

Section Exec.
Context {handle world : Type} `{!Sqlite3 handle world}.

(** [sqlite3_exec(db, sql, cb, ctx, &err_msg)]: result code, context,
    error-message slot, library state.  With a null callback the rows are
    dropped. *)
Definition sqlite3_exec {C : Type} (db : option handle) (sql : string)
    (cb : option (callback C)) (ctx : C) (err_msg : option string) (w : world)
    : Z * C * option string * world :=
  let r := sqlite3_run db sql err_msg w in
  match cb with
  | None => (reply_rc r, ctx, reply_errmsg r, reply_world r)
  | Some f =>
      let '(ctx', stopped) := feed f ctx (reply_rows r) in
      if stopped
      then (SQLITE_ABORT, ctx', Some "query aborted", reply_world r)
      else (reply_rc r, ctx', reply_errmsg r, reply_world r)
  end.
End Exec.

(** ** The result table and the row collector *)

(** [typedef std::vector<std::string> SQLITE_ROW_VECTOR] *)
Abbreviation SQLITE_ROW_VECTOR := (list string) (only parsing).

(** [argv[i] ? argv[i] : "NULL"] *)
Definition cell (v : option string) : string :=
  match v with
  | Some s => s
  | None => "NULL"
  end.

(** The loop [for (int i = 0; i < argc; i++) row.push_back(...)]:
    [todo] iterations are left, [i] is the current index. *)
Fixpoint push_columns (argv : c_array (option string)) (i todo : nat)
    (row : SQLITE_ROW_VECTOR) : SQLITE_ROW_VECTOR :=
  match todo with
  | O => row
  | S k => push_columns argv (S i) k (row ++ [cell (argv i)])
  end.

Definition exec_callback : callback (list SQLITE_ROW_VECTOR) :=
  fun ptr argc argv =>
    let row := push_columns argv 0 (Z.to_nat argc) [] in
    (ptr ++ [row], 0).

(** ** Query binders *)

(** What [query.bind().bound_query] gives the caller: the bound SQL text,
    or a thrown [std::out_of_range]. *)
Inductive bind_result : Type :=
  | Bound (bound_query : string)
  | OutOfRange.

(** [SQLITE3_QUERY.hpp] is taken as an interface: a type of queries with
    its [bind]. *)
Class QueryBinder (Q : Type) : Type := {
  bind : Q -> bind_result
}.

(** ** The class SQLITE3 *)

Section Class.
Context {handle world : Type} `{!Sqlite3 handle world}.

(** The data members.  [error_no] is a [char]; only 1, 2, 3, 4 and 127
    are ever stored in it.  [result] is the vector behind the
    [unique_ptr]. *)
Record SQLITE3 : Type := Build_SQLITE3 {
  error_no : Z;
  db : option handle;
  err_msg : option string;
  result : list SQLITE_ROW_VECTOR
}.

Definition set_error_no (e : Z) (self : SQLITE3) : SQLITE3 :=
  Build_SQLITE3 e (db self) (err_msg self) (result self).
Definition set_db (h : option handle) (self : SQLITE3) : SQLITE3 :=
  Build_SQLITE3 (error_no self) h (err_msg self) (result self).
Definition set_err_msg (m : option string) (self : SQLITE3) : SQLITE3 :=
  Build_SQLITE3 (error_no self) (db self) m (result self).
Definition set_result (t : list SQLITE_ROW_VECTOR) (self : SQLITE3) : SQLITE3 :=
  Build_SQLITE3 (error_no self) (db self) (err_msg self) t.

(** A member function maps the object and the library state to its
    return value, the object and the library state. *)
Definition method : Type := SQLITE3 -> world -> Z * SQLITE3 * world.

(** [sqlite3_exec(db, sql, nullptr, nullptr, &err_msg)] as [commit] and
    [start_transaction] call it. *)
Definition exec_plain (sql : string) (self : SQLITE3) (w : world) : Z * SQLITE3 * world :=
  let '(rc, _, msg, w') :=
    sqlite3_exec (db self) sql (None : option (callback unit)) tt (err_msg self) w in
  (rc, set_err_msg msg self, w').

(** [sqlite3_exec(db, sql, &exec_callback, &result, &err_msg)] as the
    [execute] overloads call it. *)
Definition exec_collect (sql : string) (self : SQLITE3) (w : world) : Z * SQLITE3 * world :=
  let '(rc, table, msg, w') :=
    sqlite3_exec (db self) sql (Some exec_callback) (result self) (err_msg self) w in
  (rc, set_err_msg msg (set_result table self), w').

Definition start_transaction : method := fun self w =>
  let '(rc, self, w) := exec_plain "BEGIN;" self w in
  if negb (rc =? SQLITE_OK)
  then (1, set_error_no 127 self, w)
  else (0, self, w).

(** The constructor.  [indeterminate] is the value [error_no] holds
    before anything is stored in it: the constructor does not initialise
    it.  [None] is the thrown [std::runtime_error]. *)
Definition construct (indeterminate : Z) (db_name : string) (w : world)
    : option SQLITE3 * world :=
  let self := Build_SQLITE3 indeterminate None None [] in
  if negb (String.eqb db_name "")
  then
    let '(rc, h, w) := sqlite3_open (c_str db_name) w in
    let self := set_db h self in
    if negb (rc =? SQLITE_OK)
    then (None, sqlite3_close (db self) w)
    else
      let '(_, self, w) := start_transaction self w in
      (Some self, w)
  else (Some self, w).

Definition open (db_name : string) : method := fun self w =>
  match db self with
  | Some _ => (1, set_error_no 2 self, w)
  | None =>
      let '(rc, h, w) := sqlite3_open (c_str db_name) w in
      let self := set_db h self in
      if negb (rc =? SQLITE_OK)
      then
        let self := set_error_no 1 self in
        (1, self, sqlite3_close (db self) w)
      else
        let '(_, self, w) := start_transaction self w in
        (0, self, w)
  end.

Definition commit : method := fun self w =>
  let '(rc, self, w) := exec_plain "COMMIT;" self w in
  if negb (rc =? SQLITE_OK)
  then (1, set_error_no 127 self, w)
  else
    let '(_, self, w) := start_transaction self w in
    (0, self, w).

(** [execute(std::string &query)] *)
Definition execute_string (query : string) : method := fun self w =>
  match db self with
  | None => (1, set_error_no 4 self, w)
  | Some _ =>
      let self := set_result [] self in
      let '(rc, self, w) := exec_collect (c_str query) self w in
      if negb (rc =? SQLITE_OK)
      then (1, set_error_no 127 self, w)
      else (0, self, w)
  end.

(** [execute(const char *query)]: [query] is the text the pointer
    designates. *)
Definition execute_cstr (query : string) : method := fun self w =>
  match db self with
  | None => (1, set_error_no 4 self, w)
  | Some _ =>
      let self := set_result [] self in
      let '(rc, self, w) := exec_collect query self w in
      if negb (rc =? SQLITE_OK)
      then (1, set_error_no 127 self, w)
      else (0, self, w)
  end.

(** [execute(SQLITE3_QUERY &query)] *)
Definition execute_query {Q : Type} `{!QueryBinder Q} (query : Q) : method := fun self w =>
  match db self with
  | None => (1, set_error_no 4 self, w)
  | Some _ =>
      match bind query with
      | OutOfRange => (1, set_error_no 3 self, w)
      | Bound prepared_query =>
          let self := set_result [] self in
          let '(rc, self, w) := exec_collect (c_str prepared_query) self w in
          if negb (rc =? SQLITE_OK)
          then (1, set_error_no 127 self, w)
          else (0, self, w)
      end
  end.

(** [result->size()] converted to [int]. *)
Definition get_result_row_count (self : SQLITE3) : Z :=
  let n := Z.of_nat (length (result self)) mod 2 ^ 32 in
  if n <? 2 ^ 31 then n else n - 2 ^ 32.

Definition get_result (self : SQLITE3) : list SQLITE_ROW_VECTOR := result self.

Definition getDB (self : SQLITE3) : option handle := db self.

(** What [perror] writes to [std::cerr]; [None] when it streams the null
    [err_msg]. *)
Definition perror (self : SQLITE3) : option string :=
  if error_no self =? 0 then Some ""
  else if error_no self =? 1 then Some ("SQLITE DATABASE OPEN FAILURE" +:+ newline)
  else if error_no self =? 2
    then Some ("SQLITE DATABASE ALREADY OPENED, CREATE NEW OBJECT FOR NEW DATABASE" +:+ newline)
  else if error_no self =? 3 then Some ("Query Binding Failed" +:+ newline)
  else if error_no self =? 4 then Some ("No database connected" +:+ newline)
  else if error_no self =? 127
    then match err_msg self with
         | Some m => Some (m +:+ newline)
         | None => None
         end
  else Some "".
End Class.

Arguments SQLITE3 : clear implicits.
Arguments method handle world : clear implicits.

(** The three overloads behind one entry point, for statements about
    "every execute call". *)
Inductive query_arg (Q : Type) : Type :=
  | ByString (query : string)
  | ByCstr (query : string)
  | ByBinder (query : Q).
Arguments ByString {Q} _.
Arguments ByCstr {Q} _.
Arguments ByBinder {Q} _.

(** The calls a client can make on an instance. *)
Inductive call (Q : Type) : Type :=
  | Open (db_name : string)
  | Commit
  | Execute (a : query_arg Q).
Arguments Open {Q} _.
Arguments Commit {Q}.
Arguments Execute {Q} _.

Section Calls.
Context {handle world : Type} `{!Sqlite3 handle world}.
Context {Q : Type} `{!QueryBinder Q}.

Definition execute (a : query_arg Q) : method handle world :=
  match a with
  | ByString query => execute_string query
  | ByCstr query => execute_cstr query
  | ByBinder query => execute_query query
  end.

(** The SQL text an [execute] call hands to [sqlite3_exec] once it has
    passed the connection check; [None] when [bind] throws. *)
Definition submitted (a : query_arg Q) : option string :=
  match a with
  | ByString query => Some (c_str query)
  | ByCstr query => Some query
  | ByBinder query =>
      match bind query with
      | Bound prepared_query => Some (c_str prepared_query)
      | OutOfRange => None
      end
  end.

(** What the three overloads come to past the connection check and the
    binder, as one function of the submitted text (proved below to be
    what they compute). *)
Definition submit (sql : string) (self : SQLITE3 handle) (w : world)
    : Z * SQLITE3 handle * world :=
  let r := sqlite3_run (db self) sql (err_msg self) w in
  let failed := negb (reply_rc r =? SQLITE_OK) in
  (if failed then 1 else 0,
   Build_SQLITE3 (if failed then 127 else error_no self) (db self)
     (reply_errmsg r) (map (map cell) (reply_rows r)),
   reply_world r).

Definition run_call (c : call Q) : method handle world :=
  match c with
  | Open db_name => open db_name
  | Commit => commit
  | Execute a => execute a
  end.

(** The value [start_transaction] returns to [open] or [commit] in this
    call, which they discard; 0 when the call does not reach
    [start_transaction]. *)
Definition begin_status (c : call Q) (self : SQLITE3 handle) (w : world) : Z :=
  match c with
  | Open db_name =>
      match db self with
      | Some _ => 0
      | None =>
          let '(rc, h, w) := sqlite3_open (c_str db_name) w in
          if negb (rc =? SQLITE_OK) then 0
          else (start_transaction (set_db h self) w).1.1
      end
  | Commit =>
      let '(rc, self, w) := exec_plain "COMMIT;" self w in
      if negb (rc =? SQLITE_OK) then 0
      else (start_transaction self w).1.1
  | Execute _ => 0
  end.

(** A call succeeds when it returns 0 and the [BEGIN] it sent, if any,
    succeeded too. *)
Definition succeeds (c : call Q) (self : SQLITE3 handle) (w : world) : Prop :=
  (run_call c self w).1.1 = 0 /\ begin_status c self w = 0.

(** A sequence of calls, each on the state the previous one left. *)
Fixpoint run_calls (cs : list (call Q)) (self : SQLITE3 handle) (w : world)
    : SQLITE3 handle * world :=
  match cs with
  | [] => (self, w)
  | c :: rest =>
      let '(_, self, w) := run_call c self w in
      run_calls rest self w
  end.

Fixpoint all_succeed (cs : list (call Q)) (self : SQLITE3 handle) (w : world) : Prop :=
  match cs with
  | [] => True
  | c :: rest =>
      succeeds c self w /\
      all_succeed rest (run_call c self w).1.2 (run_call c self w).2
  end.

(** Every call of the sequence returns 0, the value the class documents
    for success. *)
Fixpoint all_return_0 (cs : list (call Q)) (self : SQLITE3 handle) (w : world) : Prop :=
  match cs with
  | [] => True
  | c :: rest =>
      (run_call c self w).1.1 = 0 /\
      all_return_0 rest (run_call c self w).1.2 (run_call c self w).2
  end.
End Calls.

(** ** The error codes, as [perror] names them *)

Definition OpenFailed : Z := 1.
Definition AlreadyOpen : Z := 2.
Definition BindingFailed : Z := 3.
Definition NotConnected : Z := 4.
Definition ExecutionFailed : Z := 127.

(** The values the class stores in [error_no]. *)
Definition failure_code (e : Z) : Prop :=
  e = OpenFailed \/ e = AlreadyOpen \/ e = BindingFailed \/
  e = NotConnected \/ e = ExecutionFailed.

(** ** A query binder after the specification *)

Module SpecBinder.
(** Modelled from the spec: [SQLITE3_QUERY.hpp] is not among the
    sources.  A template is a sequence of literal fragments and
    placeholders; the binding map sends placeholder keys to text;
    resolution appends literals verbatim and bound values unquoted, and
    fails at the first placeholder without a binding. *)
Inductive fragment : Type :=
  | Literal (text : string)
  | Placeholder (key : string).

Record SQLITE3_QUERY : Type := Build_QUERY {
  template : list fragment;
  bindings : gmap string string
}.

Fixpoint resolve (B : gmap string string) (T : list fragment) : string + string :=
  match T with
  | [] => inr ""
  | Literal text :: rest =>
      match resolve B rest with
      | inr tail => inr (text +:+ tail)
      | inl key => inl key
      end
  | Placeholder key :: rest =>
      match B !! key with
      | None => inl key
      | Some value =>
          match resolve B rest with
          | inr tail => inr (value +:+ tail)
          | inl key' => inl key'
          end
      end
  end.

#[global] Instance binder : QueryBinder SQLITE3_QUERY := {
  bind q :=
    match resolve (bindings q) (template q) with
    | inr sql => Bound sql
    | inl _ => OutOfRange
    end
}.

Definition by_id : list fragment :=
  [Literal "SELECT * FROM t WHERE id = "; Placeholder "id"].
Definition scenario_A : SQLITE3_QUERY := Build_QUERY by_id {[ "id" := "5" ]}.
Definition scenario_B : SQLITE3_QUERY := Build_QUERY by_id ∅.
End SpecBinder.

(** ** A small SQLite for running the class *)

Module Mock.
(** One connection.  [begin_fails] makes [BEGIN] fail as it does when
    the library is out of memory. *)
Record world : Type := World {
  live : bool;
  in_tx : bool;
  begin_fails : bool
}.
Definition handle : Type := unit.

Definition SQLITE_ERROR : Z := 1.
Definition SQLITE_NOMEM : Z := 7.
Definition SQLITE_CANTOPEN : Z := 14.
Definition SQLITE_MISUSE : Z := 21.

Definition no_such_dir : string := "/no/such/dir/app.db".

(** As the library does, a handle is stored even when the file cannot
    be opened. *)
Definition mock_open (name : string) (w : world) : Z * option handle * world :=
  if String.eqb name no_such_dir
  then (SQLITE_CANTOPEN, Some tt, w)
  else (SQLITE_OK, Some tt, World true false (begin_fails w)).

Definition mock_close (h : option handle) (w : world) : world :=
  World false false (begin_fails w).

Definition mock_run (h : option handle) (sql : string) (slot : option string)
    (w : world) : exec_reply world :=
  match h with
  | None => ExecReply [] SQLITE_MISUSE slot w
  | Some _ =>
      if negb (live w) then ExecReply [] SQLITE_MISUSE slot w
      else if String.eqb sql "BEGIN;" then
        if begin_fails w then ExecReply [] SQLITE_NOMEM (Some "out of memory") w
        else if in_tx w
        then ExecReply [] SQLITE_ERROR
               (Some "cannot start a transaction within a transaction") w
        else ExecReply [] SQLITE_OK None (World true true (begin_fails w))
      else if String.eqb sql "COMMIT;" then
        if in_tx w
        then ExecReply [] SQLITE_OK None (World true false (begin_fails w))
        else ExecReply [] SQLITE_ERROR
               (Some "cannot commit - no transaction is active") w
      else if String.eqb sql "SELECT 1, NULL;" then
        ExecReply [[Some "1"; None]] SQLITE_OK None w
      else if String.eqb sql "SELECT 'a' UNION ALL SELECT 'b';" then
        ExecReply [[Some "a"]; [Some "b"]] SQLITE_OK None w
      else if String.eqb sql "SELECT * FROM t WHERE id = 5" then
        ExecReply [[Some "5"; Some "five"]] SQLITE_OK None w
      else if String.eqb sql "SELECT 7; SELEC" then
        ExecReply [[Some "7"]] SQLITE_ERROR (Some "near SELEC: syntax error") w
      else ExecReply [] SQLITE_ERROR (Some "syntax error") w
  end.

#[global] Instance api : Sqlite3 handle world := {
  sqlite3_open := mock_open;
  sqlite3_close := mock_close;
  sqlite3_run := mock_run;
  sqlite3_get_autocommit := fun _ w => negb (in_tx w)
}.

Definition idle : world := World false false false.
Definition starved : world := World false false true.

(** An instance constructed without a database name; its [error_no]
    happens to hold 0. *)
Definition fresh : SQLITE3 handle := Build_SQLITE3 0 None None [].
End Mock.

(** States and a call sequence for the runs below. *)
Module MockRuns.
Import Mock SpecBinder.

(** An instance after a successful [open]. *)
Definition opened : SQLITE3 handle := Build_SQLITE3 0 (Some tt) None [].
(** Connection open, transaction active. *)
Definition in_session : world := World true true false.
(** The same, in a library that cannot begin another transaction. *)
Definition in_last_session : world := World true true true.
(** An instance on which an [execute] before [open] has failed. *)
Definition refused : SQLITE3 handle := Build_SQLITE3 4 None None [].

(** An open instance holding the rows of an earlier statement. *)
Definition with_rows : SQLITE3 handle :=
  Build_SQLITE3 0 (Some tt) None [["1"; "NULL"]].

(** An instance with a null handle whose table holds a row. *)
Definition unopened_with_rows : SQLITE3 handle :=
  Build_SQLITE3 0 None None [["x"]].

(** An open instance on which the statement [SELECT 7; SELEC] has just
    failed. *)
Definition after_syntax_error : SQLITE3 handle :=
  Build_SQLITE3 127 (Some tt) (Some "near SELEC: syntax error") [["7"]].

(** The instance [refused] after a successful [open]. *)
Definition refused_then_opened : SQLITE3 handle := Build_SQLITE3 4 (Some tt) None [].

Definition session : list (call SQLITE3_QUERY) :=
  [Open "app.db"; Execute (ByCstr "SELECT 1, NULL;"); Commit;
   Execute (ByBinder scenario_A)].
End MockRuns.

(** ** The printer, the destructor and a law of the library *)

(** [print_result]: the inner loop writes each cell followed by a bar;
    [out] is what [std::cout] has received so far. *)
Definition print_cells (out : string) (x : SQLITE_ROW_VECTOR) : string :=
  fold_left (fun out y => out +:+ y +:+ "|") x out.

(** The outer loop: a bar, the cells, a line feed. *)
Definition print_rows (out : string) (t : list SQLITE_ROW_VECTOR) : string :=
  fold_left (fun out x => print_cells (out +:+ "|") x +:+ newline) t out.

Definition print_result {handle : Type} (self : SQLITE3 handle) : string :=
  print_rows "" (get_result self).

(** One printed line, as a function of the row. *)
Definition render_row (x : SQLITE_ROW_VECTOR) : string :=
  "|" +:+ fold_right (fun y rest => y +:+ "|" +:+ rest) newline x.

Definition render_table (t : list SQLITE_ROW_VECTOR) : string :=
  fold_right (fun x rest => render_row x +:+ rest) "" t.

Section Teardown.
Context {handle world : Type} `{!Sqlite3 handle world}.

(** [sqlite3_free] applied to the message buffer. *)
Variable sqlite3_free : string -> world -> world.

(** The destructor [~SQLITE3]: what it does to the library. *)
Definition destroy (self : SQLITE3 handle) (w : world) : world :=
  let w :=
    match db self with
    | Some _ => sqlite3_close (db self) w
    | None => w
    end in
  match err_msg self with
  | Some m => sqlite3_free m w
  | None => w
  end.
End Teardown.

(** The law of SQLite the transaction statements rest on: a [BEGIN] that
    succeeds leaves the connection out of autocommit mode. *)
Definition begin_opens_transaction (handle world : Type) `{!Sqlite3 handle world}
    : Prop :=
  forall (h : option handle) (slot : option string) (w : world),
    reply_rc (sqlite3_run h "BEGIN;" slot w) = SQLITE_OK ->
    sqlite3_get_autocommit h (reply_world (sqlite3_run h "BEGIN;" slot w)) = false.

(** * Properties *)

(** ** The row collector *)

Lemma push_columns_spec (r : raw_row) :
  forall (todo i : nat) (row : SQLITE_ROW_VECTOR),
    (i + todo)%nat = length r ->
    push_columns (argv_of r) i todo row = row ++ map cell (drop i r).
Proof.
  induction todo as [|k IH]; intros i row Hlen; cbn [push_columns].
  - rewrite drop_ge by lia. simpl. by rewrite app_nil_r.
  - destruct (lookup_lt_is_Some_2 r i) as [v Hv]; [lia|].
    rewrite IH by lia.
    unfold argv_of. rewrite Hv. simpl.
    rewrite (drop_S r v i Hv). simpl.
    by rewrite <- app_assoc.
Qed.

Lemma exec_callback_row (ptr : list SQLITE_ROW_VECTOR) (r : raw_row) :
  exec_callback ptr (Z.of_nat (length r)) (argv_of r) = (ptr ++ [map cell r], 0).
Proof.
  unfold exec_callback. rewrite Nat2Z.id.
  rewrite push_columns_spec by lia.
  by rewrite drop_0.
Qed.

Lemma feed_exec_callback (rows : list raw_row) :
  forall ptr : list SQLITE_ROW_VECTOR,
    feed exec_callback ptr rows = (ptr ++ map (map cell) rows, false).
Proof.
  induction rows as [|r rest IH]; intros ptr.
  - simpl. by rewrite app_nil_r.
  - cbn [feed]. rewrite exec_callback_row. cbn [Z.eqb].
    rewrite IH. simpl. by rewrite <- app_assoc.
Qed.

(** ** Equations of the member functions *)

Section Equations.
Context {handle world : Type} `{!Sqlite3 handle world}.
Context {Q : Type} `{!QueryBinder Q}.
Implicit Types (self : SQLITE3 handle) (w : world).

Lemma exec_plain_eq sql self w :
  exec_plain sql self w =
    let r := sqlite3_run (db self) sql (err_msg self) w in
    (reply_rc r, set_err_msg (reply_errmsg r) self, reply_world r).
Proof. reflexivity. Qed.

Lemma exec_collect_eq sql self w :
  exec_collect sql self w =
    let r := sqlite3_run (db self) sql (err_msg self) w in
    (reply_rc r,
     Build_SQLITE3 (error_no self) (db self) (reply_errmsg r)
       (result self ++ map (map cell) (reply_rows r)),
     reply_world r).
Proof.
  unfold exec_collect, sqlite3_exec.
  by rewrite feed_exec_callback.
Qed.

Lemma collect_after_clear sql self w :
  (let '(rc, self', w') := exec_collect sql (set_result [] self) w in
   if negb (rc =? SQLITE_OK) then (1, set_error_no 127 self', w') else (0, self', w'))
  = submit sql self w.
Proof.
  rewrite exec_collect_eq. unfold submit. cbn.
  by destruct (reply_rc _ =? SQLITE_OK).
Qed.

Lemma execute_submit (a : query_arg Q) sql self w :
  db self <> None -> submitted a = Some sql ->
  execute a self w = submit sql self w.
Proof.
  intros Hdb Hsub.
  destruct a as [query|query|query]; cbn in Hsub |- *.
  - injection Hsub as <-. unfold execute_string.
    destruct (db self) eqn:E; [|done].
    rewrite <- collect_after_clear. by rewrite exec_collect_eq.
  - injection Hsub as <-. unfold execute_cstr.
    destruct (db self) eqn:E; [|done].
    rewrite <- collect_after_clear. by rewrite exec_collect_eq.
  - unfold execute_query.
    destruct (db self) eqn:E; [|done].
    revert Hsub. destruct (bind query) as [prepared|]; intros Hsub; [|done].
    injection Hsub as <-.
    rewrite <- collect_after_clear. by rewrite exec_collect_eq.
Qed.

Lemma execute_unopened (a : query_arg Q) self w :
  db self = None -> execute a self w = (1, set_error_no 4 self, w).
Proof.
  intros Hdb.
  destruct a; cbn; unfold execute_string, execute_cstr, execute_query;
    by rewrite Hdb.
Qed.

Lemma start_transaction_eq self w :
  start_transaction self w =
    let r := sqlite3_run (db self) "BEGIN;" (err_msg self) w in
    if negb (reply_rc r =? SQLITE_OK)
    then (1, set_error_no 127 (set_err_msg (reply_errmsg r) self), reply_world r)
    else (0, set_err_msg (reply_errmsg r) self, reply_world r).
Proof. reflexivity. Qed.

Lemma commit_eq self w :
  commit self w =
    let r := sqlite3_run (db self) "COMMIT;" (err_msg self) w in
    let self1 := set_err_msg (reply_errmsg r) self in
    if negb (reply_rc r =? SQLITE_OK)
    then (1, set_error_no 127 self1, reply_world r)
    else (0, (start_transaction self1 (reply_world r)).1.2,
             (start_transaction self1 (reply_world r)).2).
Proof.
  unfold commit. rewrite exec_plain_eq. cbn beta iota zeta.
  destruct (reply_rc _ =? SQLITE_OK); cbn [negb]; [|done].
  by destruct (start_transaction _ _) as [[? ?] ?].
Qed.
End Equations.

(** ** The row callback (C7) *)

(** C7.  Whatever rows the library reports, the collector appends one row
    per reported row, in the order received; a row has one cell per
    reported column, in column order, a NULL column giving the text
    "NULL"; and the callback returns 0 on every input, so the library
    never stops the iteration. *)
Theorem exec_callback_collects_every_row :
  forall (ptr : list SQLITE_ROW_VECTOR) (rows : list raw_row),
    (forall argc argv, (exec_callback ptr argc argv).2 = 0) /\
    (forall r : raw_row,
        exec_callback ptr (Z.of_nat (length r)) (argv_of r)
        = (ptr ++ [map cell r], 0)) /\
    feed exec_callback ptr rows = (ptr ++ map (map cell) rows, false) /\
    cell None = "NULL" /\
    (forall s, cell (Some s) = s).
Proof.
  intros ptr rows. repeat split.
  - apply exec_callback_row.
  - apply feed_exec_callback.
Qed.

(** ** The execute overloads (C4, C5, C6, C9) *)

Section Execute.
Context {handle world : Type} `{!Sqlite3 handle world}.
Context {Q : Type} `{!QueryBinder Q}.
Implicit Types (self : SQLITE3 handle) (w : world).

(** C4.  On an open engine, a binder whose [bind] throws makes
    [execute] return 1 with error code 3 (binding failed); the result
    table, the error message, the handle and the state of the library
    are what they were: nothing was cleared and no SQL was submitted. *)
Theorem execute_missing_binding_touches_nothing :
  forall (query : Q) self w,
    db self <> None ->
    bind query = OutOfRange ->
    let '(ret, self', w') := execute_query query self w in
    ret = 1 /\ error_no self' = BindingFailed /\
    result self' = result self /\ w' = w /\
    db self' = db self /\ err_msg self' = err_msg self.
Proof.
  intros query self w Hdb Hbind. unfold execute_query.
  destruct (db self) eqn:E; [|done].
  rewrite Hbind. cbn. by rewrite E.
Qed.

(** C5.  On an open engine, when the library reports a failure for the
    submitted statement, [execute] returns 1 with error code 127,
    [err_msg] is the library's message (which [perror] prints), and the
    result table holds exactly the rows reported before the failure, as
    text: none when the library reported none. *)
Theorem execute_failure_keeps_partial_rows :
  forall (a : query_arg Q) sql self w,
    db self <> None ->
    submitted a = Some sql ->
    reply_rc (sqlite3_run (db self) sql (err_msg self) w) <> SQLITE_OK ->
    let r := sqlite3_run (db self) sql (err_msg self) w in
    let '(ret, self', w') := execute a self w in
    ret = 1 /\ error_no self' = ExecutionFailed /\
    err_msg self' = reply_errmsg r /\
    perror self' = (fun m => m +:+ newline) <$> reply_errmsg r /\
    result self' = map (map cell) (reply_rows r) /\
    (reply_rows r = [] -> get_result_row_count self' = 0).
Proof.
  intros a sql self w Hdb Hsub Hrc.
  rewrite (execute_submit a sql self w Hdb Hsub). unfold submit.
  apply Z.eqb_neq in Hrc. rewrite Hrc. cbn.
  repeat split; try done.
  intros Hrows. unfold get_result_row_count. cbn [result]. by rewrite Hrows.
Qed.

(** C6.  On an open engine, after two successive [execute] calls that
    both reach the submission, the result table holds the rows the
    library reported for the second statement and nothing else: the
    rows of the first call are gone. *)
Theorem successive_executes_do_not_mix_rows :
  forall (a1 a2 : query_arg Q) sql1 sql2 self w,
    db self <> None ->
    submitted a1 = Some sql1 ->
    submitted a2 = Some sql2 ->
    let '(_, self1, w1) := execute a1 self w in
    let '(_, self2, _) := execute a2 self1 w1 in
    result self2
    = map (map cell) (reply_rows (sqlite3_run (db self1) sql2 (err_msg self1) w1)).
Proof.
  intros a1 a2 sql1 sql2 self w Hdb H1 H2.
  rewrite (execute_submit a1 sql1 self w Hdb H1).
  unfold submit at 1. cbn zeta.
  set (self1 := Build_SQLITE3 _ _ _ _). set (w1 := reply_world _).
  assert (Hdb1 : db self1 <> None) by done.
  by rewrite (execute_submit a2 sql2 self1 w1 Hdb1 H2).
Qed.

(** X16.  On an instance whose handle is null, every [execute] call, by
    any of the three overloads, returns 1 with error code 4 (not
    connected) and changes nothing else: the result table, the error
    message and the state of the library are what they were. *)
Theorem execute_unopened_not_connected :
  forall (a : query_arg Q) self w,
    db self = None ->
    let '(ret, self', w') := execute a self w in
    ret = 1 /\ error_no self' = NotConnected /\
    result self' = result self /\ w' = w /\
    db self' = None /\ err_msg self' = err_msg self.
Proof.
  intros a self w Hdb. by rewrite execute_unopened.
Qed.

(** C9.  In every state, a binder that resolves to [s], the
    [std::string] overload on [s] and the [const char*] overload on the
    C string of [s] do the same: same return value, same object (error
    code, result table, error message), same library state.  When [s]
    has no NUL, it is its own C string. *)
Theorem execute_overloads_agree :
  forall (query : Q) (s : string) self w,
    bind query = Bound s ->
    execute_query query self w = execute_string s self w /\
    execute_string s self w = execute_cstr (c_str s) self w /\
    (c_str s = s -> execute_cstr s self w = execute_string s self w).
Proof.
  intros query s self w Hbind.
  assert (Hsc : execute_string s self w = execute_cstr (c_str s) self w)
    by reflexivity.
  split; [|split; [exact Hsc|]].
  - unfold execute_query, execute_string. by rewrite Hbind.
  - intros Hs. rewrite Hsc. by rewrite Hs.
Qed.
End Execute.

(** ** The error code (C10) *)

Section ErrorCode.
Context {handle world : Type} `{!Sqlite3 handle world}.
Context {Q : Type} `{!QueryBinder Q}.
Implicit Types (self : SQLITE3 handle) (w : world).

Lemma failure_code_nonzero e : failure_code e -> e <> 0.
Proof. unfold failure_code; intros [->|[->|[->|[->| ->]]]]; done. Qed.

Lemma start_transaction_error_no self w :
  let '(ret, self', _) := start_transaction self w in
  (ret = 0 /\ error_no self' = error_no self) \/
  (ret = 1 /\ error_no self' = ExecutionFailed).
Proof.
  rewrite start_transaction_eq. cbn zeta.
  destruct (reply_rc _ =? SQLITE_OK); cbn; auto.
Qed.

(** Every store into [error_no] is a failure code, and happens in a
    call that returns 1 or whose [BEGIN] failed. *)
Lemma call_error_no (c : call Q) self w :
  let '(ret, self', _) := run_call c self w in
  error_no self' = error_no self \/
  (failure_code (error_no self') /\ (ret = 1 \/ begin_status c self w = 1)).
Proof.
  unfold failure_code.
  destruct c as [db_name| |a]; cbn [run_call begin_status].
  - unfold open. destruct (db self) eqn:E; [cbn; auto 10|].
    destruct (sqlite3_open _ _) as [[rc h] w1].
    destruct (rc =? SQLITE_OK); cbn [negb]; [|cbn; auto 10].
    pose proof (start_transaction_error_no (set_db h self) w1) as Hst.
    destruct (start_transaction _ _) as [[ret s2] w2]. cbn.
    destruct Hst as [[-> ->]|[-> ->]]; cbn; auto 10.
  - rewrite commit_eq, exec_plain_eq. cbn beta iota zeta.
    destruct (reply_rc _ =? SQLITE_OK); cbn [negb]; [|cbn; auto 10].
    set (s1 := set_err_msg _ self). set (w1 := reply_world _).
    pose proof (start_transaction_error_no s1 w1) as Hst.
    destruct (start_transaction _ _) as [[ret s2] w2]. cbn.
    destruct Hst as [[-> ->]|[-> ->]]; cbn; auto 10.
  - destruct (db self) eqn:E.
    + destruct (submitted a) as [sql|] eqn:Hsub.
      * rewrite (execute_submit a sql self w) by (done || by rewrite E).
        unfold submit. cbn zeta.
        destruct (reply_rc _ =? SQLITE_OK); cbn; auto 10.
      * destruct a as [query|query|query]; try done.
        cbn in Hsub |- *. unfold execute_query. rewrite E.
        destruct (bind query); [done|]. cbn; auto 10.
    + rewrite execute_unopened by done. cbn; auto 10.
Qed.

Lemma succeeds_keeps_error_no (c : call Q) self w :
  succeeds c self w -> error_no (run_call c self w).1.2 = error_no self.
Proof.
  intros [Hret Hbegin].
  pose proof (call_error_no c self w) as Hc.
  destruct (run_call c self w) as [[ret self'] w']. cbn in *.
  destruct Hc as [Heq|[_ [Hr|Hb]]]; [done|lia|lia].
Qed.

Lemma call_keeps_failure (c : call Q) self w :
  error_no self <> 0 -> error_no (run_call c self w).1.2 <> 0.
Proof.
  intros Hne.
  pose proof (call_error_no c self w) as Hc.
  destruct (run_call c self w) as [[ret self'] w']. cbn in *.
  destruct Hc as [Heq|[Hf _]]; [congruence|by apply failure_code_nonzero].
Qed.

Lemma perror_reads_code self self' :
  error_no self' = error_no self -> error_no self <> ExecutionFailed ->
  perror self' = perror self.
Proof.
  intros Heq Hne. unfold perror. rewrite Heq.
  apply Z.eqb_neq in Hne. unfold ExecutionFailed in Hne. by rewrite Hne.
Qed.

Lemma error_no_through_calls :
  forall (cs : list (call Q)) self w,
    (forall c : call Q,
        let '(ret, self', _) := run_call c self w in
        error_no self' = error_no self \/
        (failure_code (error_no self') /\
         (ret = 1 \/ begin_status c self w = 1))) /\
    (error_no self <> 0 -> error_no (run_calls cs self w).1 <> 0) /\
    (all_succeed cs self w ->
     error_no (run_calls cs self w).1 = error_no self /\
     (error_no self <> ExecutionFailed ->
      perror (run_calls cs self w).1 = perror self)).
Proof.
  induction cs as [|c rest IH]; intros self w;
    (split; [intros c'; apply call_error_no|]).
  - cbn. auto.
  - cbn [run_calls all_succeed].
    pose proof (call_keeps_failure c self w) as Hkeep.
    pose proof (succeeds_keeps_error_no c self w) as Hsame.
    destruct (run_call c self w) as [[ret self1] w1]. cbn in *.
    destruct (IH self1 w1) as [_ [IH1 IH2]].
    split; [auto|].
    intros [Hc Hrest].
    destruct (IH2 Hrest) as [He Hp].
    specialize (Hsame Hc).
    split; [congruence|].
    intros Hne. rewrite Hp by congruence.
    by apply perror_reads_code.
Qed.

Lemma perror_reads_two_fields self self' :
  error_no self' = error_no self -> err_msg self' = err_msg self ->
  perror self' = perror self.
Proof. intros He Hm. unfold perror. by rewrite He, Hm. Qed.

(** C10, as amended.  A call changes [error_no] only by storing a failure
    code, on a path where the call returns 1 or its [BEGIN] failed; no
    call stores the no-error value, so once [error_no] holds a failure
    code it holds one after any sequence of calls.  When every call of
    the sequence returns 0 and the [BEGIN] it sent, if any, succeeded,
    [error_no] is the very code it was before the sequence; [perror]
    then prints what it would print for that code with the message now
    in [err_msg]: the same text as before for the codes 1 to 4, and for
    127 whatever the last statement left in [err_msg]. *)
Theorem error_no_survives_successful_calls :
  forall (cs : list (call Q)) self w,
    (forall c : call Q,
        let '(ret, self', _) := run_call c self w in
        error_no self' = error_no self \/
        (failure_code (error_no self') /\
         (ret = 1 \/ begin_status c self w = 1))) /\
    (error_no self <> 0 -> error_no (run_calls cs self w).1 <> 0) /\
    (all_succeed cs self w ->
     error_no (run_calls cs self w).1 = error_no self /\
     perror (run_calls cs self w).1
     = perror (set_err_msg (err_msg (run_calls cs self w).1) self) /\
     (error_no self <> ExecutionFailed ->
      perror (run_calls cs self w).1 = perror self)).
Proof.
  intros cs self w.
  destruct (error_no_through_calls cs self w) as [Hcall [Hkeep Hsucc]].
  split; [exact Hcall|]. split; [exact Hkeep|].
  intros Hall. destruct (Hsucc Hall) as [He Hp].
  split; [exact He|]. split; [|exact Hp].
  by apply perror_reads_two_fields.
Qed.
End ErrorCode.

(** ** What [commit] and [open] do with a null handle and a failed BEGIN
    (C1, C2, C3) *)

Section Transactions.
Context {handle world : Type} `{!Sqlite3 handle world}.
Implicit Types (self : SQLITE3 handle) (w : world).

(** [commit] has no connection check: the only code it stores is 127. *)
Lemma commit_error_no self w :
  error_no (commit self w).1.2 = error_no self \/
  error_no (commit self w).1.2 = ExecutionFailed.
Proof.
  rewrite commit_eq. cbn zeta.
  destruct (reply_rc _ =? SQLITE_OK); cbn [negb]; [|cbn; auto].
  set (s1 := set_err_msg _ self). set (w1 := reply_world _).
  pose proof (start_transaction_error_no s1 w1) as Hst.
  destruct (start_transaction _ _) as [[ret s2] w2]. cbn.
  destruct Hst as [[_ ->]|[_ ->]]; auto.
Qed.

(** The value [commit] returns is decided by [COMMIT] alone. *)
Lemma commit_status self w :
  (commit self w).1.1 = 0 <->
  reply_rc (sqlite3_run (db self) "COMMIT;" (err_msg self) w) = SQLITE_OK.
Proof.
  rewrite commit_eq. cbn zeta.
  destruct (reply_rc _ =? SQLITE_OK) eqn:E; cbn.
  - apply Z.eqb_eq in E. by split.
  - apply Z.eqb_neq in E. by split.
Qed.

(** After a failed [sqlite3_open], [db] keeps the pointer the library
    stored, closed or not. *)
Lemma open_failure_keeps_pointer db_name self w :
  db self = None ->
  (sqlite3_open (c_str db_name) w).1.1 <> SQLITE_OK ->
  open db_name self w
  = (1,
     Build_SQLITE3 OpenFailed (sqlite3_open (c_str db_name) w).1.2
       (err_msg self) (result self),
     sqlite3_close (sqlite3_open (c_str db_name) w).1.2
       (sqlite3_open (c_str db_name) w).2).
Proof.
  intros Hdb Hrc. unfold open. rewrite Hdb.
  destruct (sqlite3_open _ _) as [[rc h] w1]. cbn in *.
  apply Z.eqb_neq in Hrc. by rewrite Hrc.
Qed.

(** With a non-null [db], [open] calls nothing. *)
Lemma open_with_pointer db_name self w :
  db self <> None ->
  open db_name self w = (1, set_error_no AlreadyOpen self, w).
Proof.
  intros Hdb. unfold open. by destruct (db self).
Qed.

(** Once [sqlite3_open] has succeeded, [open] returns 0 whatever
    [start_transaction] returns. *)
Lemma open_status db_name self w :
  db self = None ->
  (sqlite3_open (c_str db_name) w).1.1 = SQLITE_OK ->
  (open db_name self w).1.1 = 0.
Proof.
  intros Hdb Hrc. unfold open. rewrite Hdb.
  destruct (sqlite3_open _ _) as [[rc h] w1]. cbn in Hrc.
  rewrite Hrc, Z.eqb_refl. cbn [negb].
  by destruct (start_transaction _ _) as [[? ?] ?].
Qed.

(** Calls other than [open] leave [db] as it is. *)
Lemma db_unchanged {Q : Type} `{!QueryBinder Q} (c : call Q) self w :
  (forall db_name, c <> Open db_name) ->
  db (run_call c self w).1.2 = db self.
Proof.
  intros Hc. destruct c as [db_name| |a]; cbn [run_call].
  - by destruct (Hc db_name).
  - rewrite commit_eq. cbn zeta.
    destruct (reply_rc _ =? SQLITE_OK); cbn [negb]; [|done].
    rewrite start_transaction_eq. cbn zeta.
    by destruct (reply_rc _ =? SQLITE_OK).
  - destruct (db self) eqn:E.
    + destruct (submitted a) as [sql|] eqn:Hsub.
      * rewrite (execute_submit a sql self w) by (done || by rewrite E).
        by rewrite <- E.
      * destruct a as [query|query|query]; try done.
        cbn in Hsub |- *. unfold execute_query. rewrite E.
        by destruct (bind query).
    + by rewrite execute_unopened.
Qed.
End Transactions.

(** C1.  On an instance constructed without a name (null handle),
    [commit] returns 1 and stores 127, the code of a failed statement,
    where [execute] on the same instance stores 4, not connected. *)
Theorem commit_unopened_stores_127 :
  construct 0 "" Mock.idle = (Some Mock.fresh, Mock.idle) /\
  db Mock.fresh = None /\
  commit Mock.fresh Mock.idle = (1, set_error_no ExecutionFailed Mock.fresh, Mock.idle) /\
  execute_cstr "COMMIT;" Mock.fresh Mock.idle
  = (1, set_error_no NotConnected Mock.fresh, Mock.idle).
Proof. repeat split. Qed.

(** C2.  On an open instance with an active transaction, when [COMMIT]
    succeeds and the following [BEGIN] fails, [commit] returns 0 with no
    transaction open; [error_no] holds 127. *)
Theorem commit_returns_0_without_transaction :
  sqlite3_get_autocommit (db MockRuns.opened) MockRuns.in_last_session = false /\
  (start_transaction MockRuns.opened (Mock.World true false true)).1.1 = 1 /\
  let '(ret, self', w') := commit MockRuns.opened MockRuns.in_last_session in
  ret = 0 /\
  sqlite3_get_autocommit (db self') w' = true /\
  error_no self' = ExecutionFailed.
Proof. repeat split. Qed.

(** C3.  A failed [open] leaves the closed handle in [db]: the retry on
    the same instance returns 1 with code 2, already opened, where the
    same call on a fresh instance returns 0.  And when the file opens but
    [BEGIN] fails, [open] returns 0 and the connection stays open, without
    a transaction. *)
Theorem failed_open_blocks_retry :
  (let '(ret1, self1, w1) := open Mock.no_such_dir Mock.fresh Mock.idle in
   ret1 = 1 /\ error_no self1 = OpenFailed /\
   db self1 = Some tt /\ Mock.live w1 = false /\
   let '(ret2, self2, w2) := open "app.db" self1 w1 in
   ret2 = 1 /\ error_no self2 = AlreadyOpen /\ Mock.live w2 = false) /\
  (open "app.db" Mock.fresh Mock.idle).1.1 = 0 /\
  (let '(ret3, self3, w3) := open "app.db" Mock.fresh Mock.starved in
   ret3 = 0 /\ db self3 = Some tt /\
   Mock.live w3 = true /\ Mock.in_tx w3 = false /\
   error_no self3 = ExecutionFailed).
Proof. repeat split. Qed.

(** After a failed [open] that stored a handle, [execute] passes its
    connection check: it clears the table and submits the statement. *)
Lemma execute_after_failed_open {handle world : Type} `{!Sqlite3 handle world}
    {Q : Type} `{!QueryBinder Q} (db_name : string) (a : query_arg Q)
    (sql : string) (self : SQLITE3 handle) (w : world) :
  db self = None ->
  (sqlite3_open (c_str db_name) w).1.1 <> SQLITE_OK ->
  (sqlite3_open (c_str db_name) w).1.2 <> None ->
  submitted a = Some sql ->
  let '(_, self1, w1) := open db_name self w in
  execute a self1 w1 = submit sql self1 w1.
Proof.
  intros Hdb Hrc Hh Hsub.
  rewrite (open_failure_keeps_pointer db_name self w Hdb Hrc).
  by apply execute_submit.
Qed.

(** C8.  On an instance whose only [open] has failed, leaving the closed
    handle in [db], [execute] is not refused with code 4: it passes the
    connection check, hands the statement and the closed handle to the
    library and stores 127; a table that held a row is cleared.  The same
    call on an instance never given a handle returns 1 with code 4 and
    leaves the row alone. *)
Theorem execute_after_failed_open_stores_127 :
  (let '(_, self1, w1) := open Mock.no_such_dir Mock.fresh Mock.idle in
   db self1 = Some tt /\
   let '(ret, self2, _) := execute_cstr "SELECT 1, NULL;" self1 w1 in
   ret = 1 /\ error_no self2 = ExecutionFailed /\
   error_no self2 <> NotConnected) /\
  (let '(_, self1, w1) :=
     open Mock.no_such_dir MockRuns.unopened_with_rows Mock.idle in
   result self1 = [["x"]] /\
   result (execute_cstr "SELECT 1, NULL;" self1 w1).1.2 = []) /\
  execute_cstr "SELECT 1, NULL;" MockRuns.unopened_with_rows Mock.idle
  = (1, set_error_no NotConnected MockRuns.unopened_with_rows, Mock.idle).
Proof. repeat split; vm_compute; discriminate. Qed.

(** C10, as stated, fails twice.  An [open] that returns 0 replaces the
    code 4 of an earlier failure by 127 when its [BEGIN] failed.  And
    after a failed statement (code 127), one successful [execute] leaves
    [error_no] at 127 but [err_msg] null: [perror] no longer prints the
    message of that failure. *)
Lemma returning_0_does_not_keep_the_report :
  ~ (forall (cs : list (call SpecBinder.SQLITE3_QUERY))
            (self : SQLITE3 Mock.handle) (w : Mock.world),
        all_return_0 cs self w ->
        error_no (run_calls cs self w).1 = error_no self) /\
  ~ (forall (cs : list (call SpecBinder.SQLITE3_QUERY))
            (self : SQLITE3 Mock.handle) (w : Mock.world),
        all_succeed cs self w ->
        perror (run_calls cs self w).1 = perror self).
Proof.
  split; intros H.
  - specialize (H [Open "app.db"] MockRuns.refused Mock.starved).
    assert (Hall : all_return_0 [Open (Q:=SpecBinder.SQLITE3_QUERY) "app.db"]
                     MockRuns.refused Mock.starved)
      by (vm_compute; auto).
    specialize (H Hall). vm_compute in H. discriminate H.
  - specialize (H [Execute (ByCstr "SELECT 1, NULL;")]
                  MockRuns.after_syntax_error MockRuns.in_session).
    assert (Hall : all_succeed
                     [Execute (ByCstr (Q:=SpecBinder.SQLITE3_QUERY) "SELECT 1, NULL;")]
                     MockRuns.after_syntax_error MockRuns.in_session)
      by (vm_compute; auto).
    specialize (H Hall). vm_compute in H. discriminate H.
Qed.

(** ** The theorems at work on the small SQLite *)

Lemma execute_missing_binding_witness :
  let '(ret, self', w') :=
    execute_query SpecBinder.scenario_B MockRuns.with_rows MockRuns.in_session in
  ret = 1 /\ error_no self' = BindingFailed /\
  result self' = [["1"; "NULL"]] /\ w' = MockRuns.in_session /\
  db self' = Some tt /\ err_msg self' = None.
Proof.
  assert (Hdb : db MockRuns.with_rows <> None) by (vm_compute; discriminate).
  assert (Hbind : bind SpecBinder.scenario_B = OutOfRange) by (vm_compute; reflexivity).
  pose proof (execute_missing_binding_touches_nothing
                SpecBinder.scenario_B MockRuns.with_rows MockRuns.in_session
                Hdb Hbind) as W.
  vm_compute in W |- *. exact W.
Defined.

Lemma execute_failure_witness :
  let '(ret, self', w') :=
    execute (ByString (Q:=SpecBinder.SQLITE3_QUERY) "SELECT 7; SELEC")
      MockRuns.with_rows MockRuns.in_session in
  ret = 1 /\ error_no self' = ExecutionFailed /\
  err_msg self' = Some "near SELEC: syntax error" /\
  perror self' = Some ("near SELEC: syntax error" +:+ newline) /\
  result self' = [["7"]] /\
  ([[Some "7"]] = @nil raw_row -> get_result_row_count self' = 0).
Proof.
  assert (Hdb : db MockRuns.with_rows <> None) by (vm_compute; discriminate).
  assert (Hsub : submitted (ByString (Q:=SpecBinder.SQLITE3_QUERY) "SELECT 7; SELEC")
                 = Some "SELECT 7; SELEC") by (vm_compute; reflexivity).
  assert (Hrc : reply_rc (sqlite3_run (db MockRuns.with_rows) "SELECT 7; SELEC"
                            (err_msg MockRuns.with_rows) MockRuns.in_session)
                <> SQLITE_OK) by (vm_compute; discriminate).
  pose proof (execute_failure_keeps_partial_rows
                (ByString "SELECT 7; SELEC") "SELECT 7; SELEC"
                MockRuns.with_rows MockRuns.in_session Hdb Hsub Hrc) as W.
  vm_compute in W |- *. exact W.
Defined.

Lemma successive_executes_witness :
  let '(_, self1, w1) :=
    execute (ByCstr (Q:=SpecBinder.SQLITE3_QUERY) "SELECT 'a' UNION ALL SELECT 'b';")
      MockRuns.opened MockRuns.in_session in
  let '(_, self2, _) := execute (ByBinder SpecBinder.scenario_A) self1 w1 in
  result self2 = [["5"; "five"]].
Proof.
  assert (Hdb : db MockRuns.opened <> None) by (vm_compute; discriminate).
  assert (H1 : submitted (ByCstr (Q:=SpecBinder.SQLITE3_QUERY)
                            "SELECT 'a' UNION ALL SELECT 'b';")
               = Some "SELECT 'a' UNION ALL SELECT 'b';") by (vm_compute; reflexivity).
  assert (H2 : submitted (ByBinder SpecBinder.scenario_A)
               = Some "SELECT * FROM t WHERE id = 5") by (vm_compute; reflexivity).
  pose proof (successive_executes_do_not_mix_rows _ _ _ _
                MockRuns.opened MockRuns.in_session Hdb H1 H2) as W.
  vm_compute in W |- *. exact W.
Defined.

Lemma execute_unopened_witness :
  let '(ret, self', w') :=
    execute (ByBinder SpecBinder.scenario_A) MockRuns.unopened_with_rows Mock.idle in
  ret = 1 /\ error_no self' = NotConnected /\
  result self' = [["x"]] /\ w' = Mock.idle /\
  db self' = None /\ err_msg self' = None.
Proof.
  assert (Hdb : db MockRuns.unopened_with_rows = None) by (vm_compute; reflexivity).
  pose proof (execute_unopened_not_connected
                (ByBinder SpecBinder.scenario_A)
                MockRuns.unopened_with_rows Mock.idle Hdb) as W.
  vm_compute in W |- *. exact W.
Defined.

Lemma execute_overloads_witness :
  execute_query SpecBinder.scenario_A MockRuns.opened MockRuns.in_session
  = execute_string "SELECT * FROM t WHERE id = 5" MockRuns.opened MockRuns.in_session /\
  execute_cstr "SELECT * FROM t WHERE id = 5" MockRuns.opened MockRuns.in_session
  = execute_string "SELECT * FROM t WHERE id = 5" MockRuns.opened MockRuns.in_session.
Proof.
  assert (Hbind : bind SpecBinder.scenario_A = Bound "SELECT * FROM t WHERE id = 5")
    by (vm_compute; reflexivity).
  assert (Hs : c_str "SELECT * FROM t WHERE id = 5" = "SELECT * FROM t WHERE id = 5")
    by (vm_compute; reflexivity).
  destruct (execute_overloads_agree SpecBinder.scenario_A
              "SELECT * FROM t WHERE id = 5" MockRuns.opened MockRuns.in_session
              Hbind) as [Hq [_ Hc]].
  split; [exact Hq | exact (Hc Hs)].
Defined.

Lemma error_no_survives_witness :
  all_succeed MockRuns.session MockRuns.refused Mock.idle /\
  error_no (run_calls MockRuns.session MockRuns.refused Mock.idle).1 = NotConnected /\
  perror (run_calls MockRuns.session MockRuns.refused Mock.idle).1
  = Some ("No database connected" +:+ newline).
Proof.
  assert (Hall : all_succeed MockRuns.session MockRuns.refused Mock.idle)
    by (vm_compute; repeat split).
  assert (Hne : error_no MockRuns.refused <> ExecutionFailed)
    by (vm_compute; discriminate).
  split; [exact Hall|].
  destruct (error_no_survives_successful_calls
              MockRuns.session MockRuns.refused Mock.idle) as [_ [_ Hs]].
  destruct (Hs Hall) as [He [_ Hp]].
  split; [exact He | exact (Hp Hne)].
Defined.

(** * Further properties of the class *)

Section Lifecycle.
Context {handle world : Type} `{!Sqlite3 handle world}.
Context {Q : Type} `{!QueryBinder Q}.
Implicit Types (self : SQLITE3 handle) (w : world).

Lemma start_transaction_frame self w :
  db (start_transaction self w).1.2 = db self /\
  result (start_transaction self w).1.2 = result self.
Proof.
  rewrite start_transaction_eq. cbn zeta.
  by destruct (reply_rc _ =? SQLITE_OK).
Qed.

(** X1.  Constructing with an empty name calls nothing and gives the
    blank instance.  Constructing with a name does what [open] does on
    the blank instance: it throws exactly when that [open] returns 1, and
    otherwise yields the instance and the library state [open] leaves. *)
Theorem construct_agrees_with_open :
  forall (e : Z) (db_name : string) w,
    let blank := Build_SQLITE3 e None None [] in
    construct e db_name w =
      if String.eqb db_name "" then (Some blank, w)
      else
        let '(ret, self', w') := open db_name blank w in
        (if ret =? 0 then Some self' else None, w').
Proof.
  intros e db_name w blank. unfold construct, open. fold blank.
  destruct (String.eqb db_name ""); cbn [negb db blank]; [done|].
  destruct (sqlite3_open _ _) as [[rc h] w1].
  destruct (rc =? SQLITE_OK); cbn [negb]; [|done].
  by destruct (start_transaction _ _) as [[ret s2] w2].
Qed.

(** X2.  Whatever the name, an instance that comes out of the
    constructor has an empty result table and a row count of 0. *)
Theorem constructed_table_is_empty :
  forall (e : Z) (db_name : string) w self' w',
    construct e db_name w = (Some self', w') ->
    get_result self' = [] /\ get_result_row_count self' = 0.
Proof.
  intros e db_name w self' w'. unfold construct.
  assert (Hcount : forall self, result self = [] ->
            get_result self = [] /\ get_result_row_count self = 0).
  { intros self Hr. unfold get_result, get_result_row_count.
    by rewrite Hr. }
  destruct (String.eqb db_name ""); cbn [negb].
  - intros [= <- _]. by apply Hcount.
  - destruct (sqlite3_open _ _) as [[rc h] w1].
    destruct (rc =? SQLITE_OK); cbn [negb]; [|done].
    pose proof (start_transaction_frame
                  (set_db h (Build_SQLITE3 e None None [])) w1) as [_ Hres].
    destruct (start_transaction _ _) as [[ret s2] w2].
    intros [= <- _]. by apply Hcount.
Qed.

(** X3.  Once an [open] has stored a handle, whether it succeeded or not,
    the next [open] on the instance returns 1 with code 2 and does nothing
    else: the library is not called and the object is otherwise as the
    first [open] left it. *)
Theorem second_open_is_refused :
  forall (n1 n2 : string) self w,
    db self = None ->
    (sqlite3_open (c_str n1) w).1.2 <> None ->
    let '(_, self1, w1) := open n1 self w in
    open n2 self1 w1 = (1, set_error_no AlreadyOpen self1, w1).
Proof.
  intros n1 n2 self w Hdb Hh. unfold open at 1. rewrite Hdb.
  destruct (sqlite3_open _ _) as [[rc h] w1]. cbn in Hh.
  destruct (rc =? SQLITE_OK); cbn [negb].
  - pose proof (start_transaction_frame (set_db h self) w1) as [Hd _].
    destruct (start_transaction _ _) as [[ret s2] w2]. cbn in Hd.
    apply open_with_pointer. by rewrite Hd.
  - by apply open_with_pointer.
Qed.

Lemma call_keeps_handle (c : call Q) self w :
  db self <> None -> db (run_call c self w).1.2 = db self.
Proof.
  intros Hdb. destruct c as [db_name| |a].
  - cbn [run_call]. by rewrite open_with_pointer.
  - by apply db_unchanged.
  - by apply db_unchanged.
Qed.

(** X4.  No call replaces or clears a handle: from a state with a
    non-null [db], every sequence of [open], [commit] and [execute]
    calls ends with the same [db]. *)
Theorem handle_is_never_replaced :
  forall (cs : list (call Q)) self w,
    db self <> None ->
    db (run_calls cs self w).1 = db self.
Proof.
  induction cs as [|c rest IH]; intros self w Hdb; [done|].
  cbn [run_calls].
  pose proof (call_keeps_handle c self w Hdb) as Hc.
  destruct (run_call c self w) as [[ret self1] w1]. cbn in Hc.
  rewrite IH by congruence. exact Hc.
Qed.

(** X5.  [open], [commit] and [start_transaction] never touch the result
    table: the rows of the last [execute] are still there after them,
    whether they succeed or fail. *)
Theorem open_and_commit_keep_result :
  forall (db_name : string) self w,
    result (open db_name self w).1.2 = result self /\
    result (commit self w).1.2 = result self /\
    result (start_transaction self w).1.2 = result self.
Proof.
  intros db_name self w. split; [|split].
  - unfold open. destruct (db self); [done|].
    destruct (sqlite3_open _ _) as [[rc h] w1].
    destruct (rc =? SQLITE_OK); cbn [negb]; [|done].
    pose proof (start_transaction_frame (set_db h self) w1) as [_ Hr].
    by destruct (start_transaction _ _) as [[ret s2] w2].
  - rewrite commit_eq. cbn zeta.
    destruct (reply_rc _ =? SQLITE_OK); cbn [negb fst snd]; [|done].
    by rewrite (proj2 (start_transaction_frame _ _)).
  - apply start_transaction_frame.
Qed.
End Lifecycle.

Lemma c_str_stops_at_nul (s t : string) :
  c_str (s +:+ String Ascii.zero t) = c_str s.
Proof.
  induction s as [|c s IH]; [done|].
  simpl. by rewrite IH.
Qed.

Section Running.
Context {handle world : Type} `{!Sqlite3 handle world}.
Context {Q : Type} `{!QueryBinder Q}.
Implicit Types (self : SQLITE3 handle) (w : world).

(** X6.  On an open engine, an [execute] that reaches the submission
    returns the library's verdict: 0 exactly when the result code is
    [SQLITE_OK], 1 otherwise.  When it returns 0 the error code is
    untouched.  In both cases the handle is kept, [err_msg] is what the
    library left in the slot and the library state is the one it left. *)
Theorem execute_returns_library_verdict :
  forall (a : query_arg Q) sql self w,
    db self <> None ->
    submitted a = Some sql ->
    let r := sqlite3_run (db self) sql (err_msg self) w in
    let '(ret, self', w') := execute a self w in
    (ret = 0 <-> reply_rc r = SQLITE_OK) /\
    (ret = 1 <-> reply_rc r <> SQLITE_OK) /\
    (ret = 0 -> error_no self' = error_no self) /\
    db self' = db self /\
    err_msg self' = reply_errmsg r /\
    w' = reply_world r.
Proof.
  intros a sql self w Hdb Hsub.
  rewrite (execute_submit a sql self w Hdb Hsub). unfold submit. cbn zeta.
  destruct (reply_rc _ =? SQLITE_OK) eqn:E; cbn [negb].
  - apply Z.eqb_eq in E. repeat split; try done; congruence.
  - apply Z.eqb_neq in E. repeat split; try done; congruence.
Qed.

Lemma row_count_small self :
  Z.of_nat (length (result self)) < 2 ^ 31 ->
  get_result_row_count self = Z.of_nat (length (result self)).
Proof.
  intros Hsmall. unfold get_result_row_count.
  rewrite Z.mod_small by lia.
  destruct (Z.ltb_spec (Z.of_nat (length (result self))) (2 ^ 31)); [done|lia].
Qed.

Lemma cells_match_columns (rows : list raw_row) :
  Forall2 (fun (row : SQLITE_ROW_VECTOR) (raw : raw_row) =>
             length row = length raw)
    (map (map cell) rows) rows.
Proof.
  induction rows as [|raw rest IH]; cbn [map]; constructor; [|done].
  apply List.length_map.
Qed.

(** X7.  After an [execute] that reaches the submission, with fewer than
    2^31 rows reported, [get_result_row_count] is the number of rows the
    library reported, and each row of [get_result] has as many cells as
    the library reported columns for it: rows of different widths are
    stored as they come. *)
Theorem row_count_after_execute :
  forall (a : query_arg Q) sql self w,
    db self <> None ->
    submitted a = Some sql ->
    Z.of_nat (length (reply_rows (sqlite3_run (db self) sql (err_msg self) w)))
      < 2 ^ 31 ->
    let r := sqlite3_run (db self) sql (err_msg self) w in
    let '(_, self', _) := execute a self w in
    get_result_row_count self' = Z.of_nat (length (reply_rows r)) /\
    Forall2 (fun (row : SQLITE_ROW_VECTOR) (raw : raw_row) =>
               length row = length raw)
      (get_result self') (reply_rows r).
Proof.
  intros a sql self w Hdb Hsub Hsmall.
  rewrite (execute_submit a sql self w Hdb Hsub). unfold submit. cbn zeta.
  split.
  - rewrite row_count_small; cbn [result]; rewrite List.length_map; [done|lia].
  - apply cells_match_columns.
Qed.

(** X8.  The [std::string] overload of [execute] and [open] hand the
    library [c_str()]: whatever follows the first NUL of the argument is
    never seen, so cutting the argument there changes nothing. *)
Theorem text_after_nul_is_ignored :
  forall (s t : string) self w,
    execute_string (s +:+ String Ascii.zero t) self w = execute_string s self w /\
    open (s +:+ String Ascii.zero t) self w = open s self w.
Proof.
  intros s t self w. unfold execute_string, open.
  by rewrite c_str_stops_at_nul.
Qed.

(** X9.  On a library where a successful [BEGIN] opens a transaction:
    when [COMMIT] and the [BEGIN] after it both succeed, [commit] returns
    0, a transaction is open afterwards, the error code, the handle and
    the result table are untouched, and [err_msg] is what [BEGIN] left. *)
Theorem commit_success_opens_transaction :
  forall self w,
    begin_opens_transaction handle world ->
    let r1 := sqlite3_run (db self) "COMMIT;" (err_msg self) w in
    let r2 := sqlite3_run (db self) "BEGIN;" (reply_errmsg r1) (reply_world r1) in
    reply_rc r1 = SQLITE_OK ->
    reply_rc r2 = SQLITE_OK ->
    commit self w = (0, set_err_msg (reply_errmsg r2) self, reply_world r2) /\
    sqlite3_get_autocommit (db self) (commit self w).2 = false.
Proof.
  intros self w Hlaw r1 r2 H1 H2.
  assert (Hc : commit self w
               = (0, set_err_msg (reply_errmsg r2) self, reply_world r2)).
  { rewrite commit_eq. cbn zeta. fold r1. rewrite H1. cbn [Z.eqb negb SQLITE_OK].
    rewrite start_transaction_eq. cbn zeta.
    change (sqlite3_run _ "BEGIN;" _ _) with r2.
    by rewrite H2. }
  split; [exact Hc|].
  rewrite Hc. cbn [snd]. by apply Hlaw.
Qed.

(** X10.  On such a library: when [sqlite3_open] and the [BEGIN] after
    it both succeed on an instance with a null handle, [open] returns 0,
    stores the handle the library gave, leaves the error code and the
    result table untouched, and a transaction is open on that handle. *)
Theorem open_success_opens_transaction :
  forall (db_name : string) self w,
    begin_opens_transaction handle world ->
    db self = None ->
    let o := sqlite3_open (c_str db_name) w in
    let r := sqlite3_run o.1.2 "BEGIN;" (err_msg self) o.2 in
    o.1.1 = SQLITE_OK ->
    reply_rc r = SQLITE_OK ->
    open db_name self w
    = (0, Build_SQLITE3 (error_no self) o.1.2 (reply_errmsg r) (result self),
       reply_world r) /\
    sqlite3_get_autocommit o.1.2 (open db_name self w).2 = false.
Proof.
  intros db_name self w Hlaw Hdb o r Ho Hr.
  assert (Hopen : open db_name self w
                  = (0, Build_SQLITE3 (error_no self) o.1.2 (reply_errmsg r)
                          (result self), reply_world r)).
  { unfold open. rewrite Hdb. subst r. revert Ho Hr. subst o.
    destruct (sqlite3_open _ _) as [[rc h] w1]. cbn [fst snd].
    intros -> Hr. cbn [Z.eqb negb SQLITE_OK].
    rewrite start_transaction_eq. cbn zeta. cbn [db err_msg set_db].
    by rewrite Hr. }
  split; [exact Hopen|].
  rewrite Hopen. cbn [snd]. by apply Hlaw.
Qed.
End Running.

(** ** Printing and reporting *)

Lemma append_assoc (a b c : string) : (a +:+ b) +:+ c = a +:+ (b +:+ c).
Proof.
  induction a as [|x a IH]; [done|].
  change (String x ((a +:+ b) +:+ c) = String x (a +:+ (b +:+ c))).
  by rewrite IH.
Qed.

Lemma append_empty_r (a : string) : a +:+ "" = a.
Proof.
  induction a as [|x a IH]; [done|].
  change (String x (a +:+ "") = String x a).
  by rewrite IH.
Qed.

Lemma append_newline_nonempty (m : string) : m +:+ newline <> "".
Proof. by destruct m. Qed.

Lemma print_cells_spec (x : SQLITE_ROW_VECTOR) :
  forall out tail : string,
    print_cells out x +:+ tail
    = out +:+ fold_right (fun y rest => y +:+ "|" +:+ rest) tail x.
Proof.
  unfold print_cells.
  induction x as [|y x IH]; intros out tail; [done|].
  cbn [fold_left fold_right]. rewrite IH.
  by rewrite !append_assoc.
Qed.

Lemma print_rows_spec (t : list SQLITE_ROW_VECTOR) :
  forall out : string, print_rows out t = out +:+ render_table t.
Proof.
  unfold print_rows.
  induction t as [|x t IH]; intros out; cbn [fold_left render_table fold_right].
  - by rewrite append_empty_r.
  - rewrite IH, print_cells_spec. unfold render_row.
    by rewrite !append_assoc.
Qed.

(** X11.  [print_result] writes one line per row of the table, in order:
    a bar, each cell followed by a bar, a line feed.  It writes nothing
    exactly when the table is empty. *)
Theorem print_result_lines :
  forall {handle : Type} (self : SQLITE3 handle),
    print_result self = render_table (get_result self) /\
    (print_result self = "" <-> get_result self = []).
Proof.
  intros handle self.
  assert (Hp : print_result self = render_table (get_result self))
    by (unfold print_result; by rewrite print_rows_spec).
  split; [exact Hp|]. rewrite Hp.
  destruct (get_result self) as [|x t]; [done|].
  split; [|done]. cbn [render_table fold_right]. unfold render_row.
  simpl. discriminate.
Qed.

(** X12.  [perror] writes nothing exactly when [error_no] is none of the
    codes 1, 2, 3, 4, 127 (0 and any value the field was never given
    alike), and it streams a null pointer exactly when the code is 127
    and [err_msg] is null. *)
Theorem perror_silent_iff :
  forall {handle : Type} (self : SQLITE3 handle),
    (perror self = Some "" <-> ~ failure_code (error_no self)) /\
    (perror self = None <->
     error_no self = ExecutionFailed /\ err_msg self = None).
Proof.
  intros handle self.
  unfold perror, failure_code, OpenFailed, AlreadyOpen, BindingFailed,
    NotConnected, ExecutionFailed.
  destruct (Z.eqb_spec (error_no self) 0) as [E|E];
    [rewrite E; split; split; (lia || done || (intros; exfalso; lia))|].
  destruct (Z.eqb_spec (error_no self) 1) as [E1|E1];
    [split; split; (done || tauto || lia || (intros; exfalso; lia))|].
  destruct (Z.eqb_spec (error_no self) 2) as [E2|E2];
    [split; split; (done || tauto || lia || (intros; exfalso; lia))|].
  destruct (Z.eqb_spec (error_no self) 3) as [E3|E3];
    [split; split; (done || tauto || lia || (intros; exfalso; lia))|].
  destruct (Z.eqb_spec (error_no self) 4) as [E4|E4];
    [split; split; (done || tauto || lia || (intros; exfalso; lia))|].
  destruct (Z.eqb_spec (error_no self) 127) as [E5|E5].
  - destruct (err_msg self) as [m|]; split; split;
      try (done || tauto || (intros; exfalso; lia)).
    + intros [= Hm]. by destruct (append_newline_nonempty m).
    + by intros [_ ?].
  - split; split; (done || lia || (intros; exfalso; lia)).
Qed.

(** ** Tearing down *)

Section TeardownFacts.
Context {handle world : Type} `{!Sqlite3 handle world}.
Variable sqlite3_free : string -> world -> world.
Implicit Types (self : SQLITE3 handle) (w : world).

(** X13.  When [sqlite3_open] fails having stored a handle, [open] closes
    that handle and keeps it in [db]; the destructor then passes the same
    handle to [sqlite3_close] once more.  With no message buffer it frees
    nothing. *)
Theorem destroy_after_failed_open_closes_again :
  forall (db_name : string) self w,
    db self = None ->
    err_msg self = None ->
    (sqlite3_open (c_str db_name) w).1.1 <> SQLITE_OK ->
    (sqlite3_open (c_str db_name) w).1.2 <> None ->
    let o := sqlite3_open (c_str db_name) w in
    let '(_, self1, w1) := open db_name self w in
    w1 = sqlite3_close o.1.2 o.2 /\
    destroy sqlite3_free self1 w1 = sqlite3_close o.1.2 (sqlite3_close o.1.2 o.2).
Proof.
  intros db_name self w Hdb Hmsg Hrc Hh.
  rewrite (open_failure_keeps_pointer db_name self w Hdb Hrc).
  cbn zeta. split; [done|].
  unfold destroy. cbn [db err_msg]. rewrite Hmsg.
  by destruct ((sqlite3_open (c_str db_name) w).1.2).
Qed.
End TeardownFacts.

(** ** Status values and codes *)

Section Codes.
Context {handle world : Type} `{!Sqlite3 handle world}.
Context {Q : Type} `{!QueryBinder Q}.
Implicit Types (self : SQLITE3 handle) (w : world).

(** X14.  Every call returns 0 or 1, and a call that returns 1 has stored
    its code in [error_no]: 1 or 2 for [open], 127 for [commit], and 3,
    4 or 127 for [execute]. *)
Theorem codes_by_operation :
  forall (c : call Q) self w,
    let '(ret, self', _) := run_call c self w in
    (ret = 0 \/ ret = 1) /\
    (ret = 1 ->
     match c with
     | Open _ => error_no self' = OpenFailed \/ error_no self' = AlreadyOpen
     | Commit => error_no self' = ExecutionFailed
     | Execute _ =>
         error_no self' = BindingFailed \/ error_no self' = NotConnected \/
         error_no self' = ExecutionFailed
     end).
Proof.
  intros c self w. destruct c as [db_name| |a]; cbn [run_call].
  - unfold open. destruct (db self) eqn:E; [cbn; auto|].
    destruct (sqlite3_open _ _) as [[rc h] w1].
    destruct (rc =? SQLITE_OK); cbn [negb]; [|cbn; auto].
    destruct (start_transaction _ _) as [[ret s2] w2].
    split; [auto|done].
  - rewrite commit_eq. cbn zeta.
    destruct (reply_rc _ =? SQLITE_OK); cbn [negb]; [|cbn; auto].
    split; [auto|done].
  - destruct (db self) eqn:E.
    + destruct (submitted a) as [sql|] eqn:Hsub.
      * rewrite (execute_submit a sql self w) by (done || by rewrite E).
        unfold submit. cbn zeta.
        destruct (reply_rc _ =? SQLITE_OK); cbn; [split; [auto|done]|auto].
      * destruct a as [query|query|query]; try done.
        cbn in Hsub |- *. unfold execute_query. rewrite E.
        destruct (bind query); [done|]. cbn; auto.
    + rewrite execute_unopened by done. cbn; auto.
Qed.
End Codes.

(** ** The bounds of the row callback *)

Lemma push_columns_ext (argv argv' : c_array (option string)) :
  forall (todo i : nat) (row : SQLITE_ROW_VECTOR),
    (forall j : nat, (i <= j < i + todo)%nat -> argv j = argv' j) ->
    push_columns argv i todo row = push_columns argv' i todo row.
Proof.
  induction todo as [|k IH]; intros i row Hagree; [done|].
  cbn [push_columns]. rewrite (Hagree i) by lia.
  apply IH. intros j Hj. apply Hagree. lia.
Qed.

Lemma push_columns_length (argv : c_array (option string)) :
  forall (todo i : nat) (row : SQLITE_ROW_VECTOR),
    length (push_columns argv i todo row) = (length row + todo)%nat.
Proof.
  induction todo as [|k IH]; intros i row; cbn [push_columns]; [lia|].
  rewrite IH, length_app. cbn. lia.
Qed.

(** X15.  [exec_callback] reads [argv] only at the indices below [argc]:
    two arrays that agree there give the same result.  It appends exactly
    one row, of [argc] cells, and an empty row when [argc] is zero or
    negative. *)
Theorem exec_callback_reads_below_argc :
  forall (ptr : list SQLITE_ROW_VECTOR) (argc : Z)
         (argv argv' : c_array (option string)),
    (forall i : nat, (i < Z.to_nat argc)%nat -> argv i = argv' i) ->
    exec_callback ptr argc argv = exec_callback ptr argc argv' /\
    (exists row : SQLITE_ROW_VECTOR,
        (exec_callback ptr argc argv).1 = ptr ++ [row] /\
        length row = Z.to_nat argc) /\
    (argc <= 0 -> (exec_callback ptr argc argv).1 = ptr ++ [[]]).
Proof.
  intros ptr argc argv argv' Hagree. unfold exec_callback. cbn [fst].
  split; [|split].
  - rewrite (push_columns_ext argv argv'); [done|].
    intros j Hj. apply Hagree. lia.
  - eexists. split; [done|]. by rewrite push_columns_length.
  - intros Hneg. replace (Z.to_nat argc) with 0%nat by lia. done.
Qed.

(** ** The further properties at work on the small SQLite *)

Lemma mock_begin_law : begin_opens_transaction Mock.handle Mock.world.
Proof.
  intros h slot [l t b].
  destruct h as [[]|], l, t, b; vm_compute; intros E;
    (discriminate E || reflexivity).
Qed.

Lemma constructed_table_witness :
  get_result MockRuns.opened = [] /\ get_result_row_count MockRuns.opened = 0.
Proof.
  assert (Hc : construct 0 "app.db" Mock.idle
               = (Some MockRuns.opened, MockRuns.in_session))
    by (vm_compute; reflexivity).
  exact (constructed_table_is_empty 0 "app.db" Mock.idle
           MockRuns.opened MockRuns.in_session Hc).
Defined.

Lemma second_open_witness :
  let '(_, self1, w1) := open Mock.no_such_dir Mock.fresh Mock.idle in
  open "app.db" self1 w1 = (1, set_error_no AlreadyOpen self1, w1).
Proof.
  assert (Hdb : db Mock.fresh = None) by (vm_compute; reflexivity).
  assert (Hh : (sqlite3_open (c_str Mock.no_such_dir) Mock.idle).1.2 <> None)
    by (vm_compute; discriminate).
  exact (second_open_is_refused Mock.no_such_dir "app.db"
           Mock.fresh Mock.idle Hdb Hh).
Defined.

Lemma handle_kept_witness :
  db (run_calls MockRuns.session MockRuns.opened MockRuns.in_session).1 = Some tt.
Proof.
  assert (Hdb : db MockRuns.opened <> None) by (vm_compute; discriminate).
  exact (handle_is_never_replaced MockRuns.session
           MockRuns.opened MockRuns.in_session Hdb).
Defined.

Lemma execute_verdict_witness :
  let '(ret, self', w') :=
    execute (ByCstr (Q:=SpecBinder.SQLITE3_QUERY) "SELECT 1, NULL;")
      MockRuns.refused_then_opened MockRuns.in_session in
  (ret = 0 <-> SQLITE_OK = SQLITE_OK) /\
  (ret = 1 <-> SQLITE_OK <> SQLITE_OK) /\
  (ret = 0 -> error_no self' = NotConnected) /\
  db self' = Some tt /\
  err_msg self' = None /\
  w' = MockRuns.in_session.
Proof.
  assert (Hdb : db MockRuns.refused_then_opened <> None)
    by (vm_compute; discriminate).
  assert (Hsub : submitted (ByCstr (Q:=SpecBinder.SQLITE3_QUERY) "SELECT 1, NULL;")
                 = Some "SELECT 1, NULL;") by (vm_compute; reflexivity).
  pose proof (execute_returns_library_verdict
                (ByCstr "SELECT 1, NULL;") "SELECT 1, NULL;"
                MockRuns.refused_then_opened MockRuns.in_session Hdb Hsub) as W.
  vm_compute in W |- *. exact W.
Defined.

Lemma row_count_witness :
  let '(_, self', _) :=
    execute (ByCstr (Q:=SpecBinder.SQLITE3_QUERY) "SELECT 'a' UNION ALL SELECT 'b';")
      MockRuns.with_rows MockRuns.in_session in
  get_result_row_count self' = 2.
Proof.
  assert (Hdb : db MockRuns.with_rows <> None) by (vm_compute; discriminate).
  assert (Hsub : submitted (ByCstr (Q:=SpecBinder.SQLITE3_QUERY)
                              "SELECT 'a' UNION ALL SELECT 'b';")
                 = Some "SELECT 'a' UNION ALL SELECT 'b';")
    by (vm_compute; reflexivity).
  assert (Hsmall :
            Z.of_nat (length (reply_rows
              (sqlite3_run (db MockRuns.with_rows)
                 "SELECT 'a' UNION ALL SELECT 'b';"
                 (err_msg MockRuns.with_rows) MockRuns.in_session))) < 2 ^ 31)
    by (vm_compute; reflexivity).
  pose proof (row_count_after_execute
                (ByCstr "SELECT 'a' UNION ALL SELECT 'b';")
                "SELECT 'a' UNION ALL SELECT 'b';"
                MockRuns.with_rows MockRuns.in_session Hdb Hsub Hsmall) as W.
  vm_compute in W |- *. exact (proj1 W).
Defined.

Lemma commit_success_witness :
  commit MockRuns.opened MockRuns.in_session
  = (0, MockRuns.opened, MockRuns.in_session) /\
  sqlite3_get_autocommit (Some tt)
    (commit MockRuns.opened MockRuns.in_session).2 = false.
Proof.
  assert (H1 : reply_rc (sqlite3_run (db MockRuns.opened) "COMMIT;"
                           (err_msg MockRuns.opened) MockRuns.in_session)
               = SQLITE_OK) by (vm_compute; reflexivity).
  assert (H2 : reply_rc
                 (sqlite3_run (db MockRuns.opened) "BEGIN;"
                    (reply_errmsg (sqlite3_run (db MockRuns.opened) "COMMIT;"
                       (err_msg MockRuns.opened) MockRuns.in_session))
                    (reply_world (sqlite3_run (db MockRuns.opened) "COMMIT;"
                       (err_msg MockRuns.opened) MockRuns.in_session)))
               = SQLITE_OK) by (vm_compute; reflexivity).
  exact (commit_success_opens_transaction MockRuns.opened MockRuns.in_session
           mock_begin_law H1 H2).
Defined.

Lemma open_success_witness :
  open "app.db" Mock.fresh Mock.idle = (0, MockRuns.opened, MockRuns.in_session) /\
  sqlite3_get_autocommit (Some tt) (open "app.db" Mock.fresh Mock.idle).2 = false.
Proof.
  assert (Hdb : db Mock.fresh = None) by (vm_compute; reflexivity).
  assert (Ho : (sqlite3_open (c_str "app.db") Mock.idle).1.1 = SQLITE_OK)
    by (vm_compute; reflexivity).
  assert (Hr : reply_rc
                 (sqlite3_run (sqlite3_open (c_str "app.db") Mock.idle).1.2 "BEGIN;"
                    (err_msg Mock.fresh)
                    (sqlite3_open (c_str "app.db") Mock.idle).2)
               = SQLITE_OK) by (vm_compute; reflexivity).
  exact (open_success_opens_transaction "app.db" Mock.fresh Mock.idle
           mock_begin_law Hdb Ho Hr).
Defined.

Lemma destroy_after_failed_open_witness :
  let '(_, self1, w1) := open Mock.no_such_dir Mock.fresh Mock.idle in
  w1 = Mock.idle /\
  destroy (fun _ w => w) self1 w1 = Mock.mock_close (Some tt) (Mock.mock_close (Some tt) Mock.idle).
Proof.
  assert (Hdb : db Mock.fresh = None) by (vm_compute; reflexivity).
  assert (Hmsg : err_msg Mock.fresh = None) by (vm_compute; reflexivity).
  assert (Hrc : (sqlite3_open (c_str Mock.no_such_dir) Mock.idle).1.1 <> SQLITE_OK)
    by (vm_compute; discriminate).
  assert (Hh : (sqlite3_open (c_str Mock.no_such_dir) Mock.idle).1.2 <> None)
    by (vm_compute; discriminate).
  pose proof (destroy_after_failed_open_closes_again (fun _ w => w)
                Mock.no_such_dir Mock.fresh Mock.idle Hdb Hmsg Hrc Hh) as W.
  vm_compute in W |- *. exact W.
Defined.

Lemma exec_callback_bounds_witness :
  exec_callback [] 1 (argv_of [Some "a"])
  = exec_callback [] 1 (argv_of [Some "a"; Some "b"]).
Proof.
  assert (Hagree : forall i : nat, (i < Z.to_nat 1)%nat ->
            argv_of [Some "a"] i = argv_of [Some "a"; Some "b"] i).
  { intros i Hi. destruct i as [|i]; [reflexivity|]. vm_compute in Hi. lia. }
  exact (proj1 (exec_callback_reads_below_argc [] 1
                  (argv_of [Some "a"]) (argv_of [Some "a"; Some "b"]) Hagree)).
Defined.
